(** * solara.lab.components.menu: ClickMenu, ContextMenu and Menu

    A shallow embedding of [src/solara/lab/components/menu.py].  The three
    components are render functions: they obtain a reactive boolean for
    [open], flatten the style, wrap a lone activator element in a list and
    hand the keyword arguments to [MenuWidget].  Reactive values are shared
    mutable objects, so they live in a heap of cells addressed by handles;
    a render is a computation over that heap. *)

From stdpp Require Import base option gmap strings list.

(** ** Data *)

(** [Union[solara.Element, List[solara.Element]]]: the [activator] argument.
    [isinstance(activator, list)] is the test on the constructor. *)
Inductive activator_arg (Element : Type) : Type :=
  | ActElement (e : Element)
  | ActList (l : list Element).
Arguments ActElement {Element} e.
Arguments ActList {Element} l.

(** [Union[solara.Reactive[bool], bool]]: the [open] argument.  A
    [solara.Reactive] is an object with identity; it is named by the handle
    of its cell in the heap. *)
Inductive open_arg : Type :=
  | OpenReactive (r : nat)
  | OpenBool (b : bool).

(** [Union[str, Dict[str, str]]]: the [style] argument (a Python dict keeps
    insertion order, so it is an association list). *)
Inductive style_spec : Type :=
  | StyleStr (s : string)
  | StyleDict (d : list (string * string)).

(** The render state: the heap of reactive cells, and the hook slot of the
    component instance being rendered, which remembers the reactive value the
    instance created for itself on an earlier render. *)
Record state : Type := State {
  heap : gmap nat bool;
  memo : option nat
}.

(** A component instance that has not been rendered yet. *)
Definition fresh_instance (h : gmap nat bool) : state :=
  {| heap := h; memo := None |}.

(** ** Render computations

    A Python call either returns or raises; both leave a state behind.  The
    specification names a single exception, [ConfigurationError].  [None] is
    not a Python outcome: it marks a heap in which a handle names no cell,
    which no Python program can build. *)
Inductive exception : Type :=
  | ConfigurationError.

Inductive outcome (A : Type) : Type :=
  | Returned (a : A) (σ : state)
  | Raised (e : exception) (σ : state).
Arguments Returned {A} a σ.
Arguments Raised {A} e σ.

Definition render (A : Type) : Type := state → option (outcome A).

#[global] Instance render_ret : MRet render :=
  λ A a σ, Some (Returned a σ).

#[global] Instance render_bind : MBind render :=
  λ A B k m σ,
    match m σ with
    | Some (Returned a σ') => k a σ'
    | Some (Raised e σ') => Some (Raised e σ')
    | None => None
    end.

(** ** Reactive values *)

(** Modelled from the spec: [Reactive.value] (read) of [solara.Reactive],
    which is not part of the sources at hand: "a handle exposing [.value]
    (read)". *)
Definition Reactive_value (r : nat) : render bool :=
  λ σ, match heap σ !! r with
       | Some v => Some (Returned v σ)
       | None => None
       end.

(** Modelled from the spec: [Reactive.set] of [solara.Reactive], which is not
    part of the sources at hand: "[.set(newValue)] (write side effect)";
    "Setting a binding's value via [.set(x)] makes subsequent [.value] reads
    return [x]". *)
Definition Reactive_set (r : nat) (x : bool) : render unit :=
  λ σ, match heap σ !! r with
       | Some _ => Some (Returned () {| heap := <[r := x]> (heap σ); memo := memo σ |})
       | None => None
       end.

(** Modelled from the spec: [solara.use_reactive], which is not part of the
    sources at hand: "given either a raw boolean or an existing reactive
    boolean handle, produce a handle ... If given a raw boolean, the binding
    is locally owned (scoped to the lifetime of the consuming component) and
    initialized to that value.  If given an existing handle, ownership is
    shared with the caller ... No error conditions; always succeeds."  The
    locally owned binding persists across renders in the hook slot. *)
Definition use_reactive (value : open_arg) : render nat :=
  λ σ, match value with
       | OpenReactive r => Some (Returned r σ)
       | OpenBool b =>
           match memo σ with
           | Some r => Some (Returned r σ)
           | None =>
               let r := fresh (dom (heap σ)) in
               Some (Returned r {| heap := <[r := b]> (heap σ); memo := Some r |})
           end
       end.

(** The handles an argument and a state rely on name cells of the heap. *)
Definition live (r : nat) (σ : state) : Prop := is_Some (heap σ !! r).

Definition ready (value : open_arg) (σ : state) : Prop :=
  match value with
  | OpenReactive r => live r σ
  | OpenBool _ =>
      match memo σ with
      | Some r => live r σ
      | None => True
      end
  end.

#[global] Instance live_dec r σ : Decision (live r σ).
Proof. unfold live. apply _. Defined.

#[global] Instance ready_dec value σ : Decision (ready value σ).
Proof. destruct value; simpl; [apply _|]. destruct (memo σ); apply _. Defined.

(** ** The widget and the three components *)

(** The keyword arguments [MenuWidget] hands to [menu.vue]. *)
Record MenuConfig (Element : Type) : Type := {
  activator : list Element;
  show_menu : bool;
  on_show_menu : option (bool → render unit);
  children : list Element;
  style : option string;
  context : bool;
  use_absolute : bool;
  close_on_content_click : bool
}.
Arguments activator {Element} _.
Arguments show_menu {Element} _.
Arguments on_show_menu {Element} _.
Arguments children {Element} _.
Arguments style {Element} _.
Arguments context {Element} _.
Arguments use_absolute {Element} _.
Arguments close_on_content_click {Element} _.

Section Menu.
Context {Element : Type}.

(** [solara.util._flatten_style] is an external collaborator: any function
    from the style argument to the string handed to the widget. *)
Variable _flatten_style : option style_spec → option string.

(** menu.py, lines 7-18.  An omitted keyword argument is [None] and takes
    the default of the signature. *)
Definition MenuWidget
    (activator : list Element)
    (show_menu : bool)
    (on_show_menu : option (bool → render unit))
    (children : option (list Element))
    (style : option string)
    (context use_absolute close_on_content_click : option bool)
    : MenuConfig Element :=
  {| activator := activator;
     show_menu := show_menu;
     on_show_menu := on_show_menu;
     children := default [] children;
     style := style;
     context := default false context;
     use_absolute := default true use_absolute;
     close_on_content_click := default true close_on_content_click |}.

(** menu.py, lines 57-58, 106-107 and 181-182:
    [if not isinstance(activator, list): activator = [activator]]. *)
Definition normalize_activator (activator : activator_arg Element) : list Element :=
  match activator with
  | ActElement e => [e]
  | ActList l => l
  end.

(** menu.py, lines 21-66. *)
Definition ClickMenu
    (activator : activator_arg Element)
    (open : option open_arg)
    (children : option (list Element))
    (style : option style_spec)
    : render (MenuConfig Element) :=
  open ← use_reactive (default (OpenBool false) open);
  let style_flat := _flatten_style style in
  let activator := normalize_activator activator in
  value ← Reactive_value open;
  mret (MenuWidget activator value (Some (Reactive_set open))
          (Some (default [] children)) style_flat None None None).

(** menu.py, lines 69-116. *)
Definition ContextMenu
    (activator : activator_arg Element)
    (open : option open_arg)
    (children : option (list Element))
    (style : option style_spec)
    : render (MenuConfig Element) :=
  open ← use_reactive (default (OpenBool false) open);
  let style_flat := _flatten_style style in
  let activator := normalize_activator activator in
  value ← Reactive_value open;
  mret (MenuWidget activator value (Some (Reactive_set open))
          (Some (default [] children)) style_flat (Some true) None None).

(** menu.py, lines 144-192. *)
Definition Menu
    (activator : activator_arg Element)
    (open : option open_arg)
    (close_on_content_click : option bool)
    (children : option (list Element))
    (style : option style_spec)
    : render (MenuConfig Element) :=
  open ← use_reactive (default (OpenBool false) open);
  let style_flat := _flatten_style style in
  let activator := normalize_activator activator in
  value ← Reactive_value open;
  mret (MenuWidget activator value (Some (Reactive_set open))
          (Some (default [] children)) style_flat None (Some false)
          (Some (default true close_on_content_click))).

End Menu.

Arguments MenuWidget {Element} activator show_menu on_show_menu children style
  context use_absolute close_on_content_click.
Arguments normalize_activator {Element} activator.

(** The three components side by side, for statements about "every variant". *)
Inductive variant : Type :=
  | Popup
  | ContextTrigger
  | Anchored (close_on_content_click : option bool).

Definition render_variant {Element : Type}
    (_flatten_style : option style_spec → option string)
    (v : variant)
    (activator : activator_arg Element)
    (open : option open_arg)
    (children : option (list Element))
    (style : option style_spec)
    : render (MenuConfig Element) :=
  match v with
  | Popup => ClickMenu _flatten_style activator open children style
  | ContextTrigger => ContextMenu _flatten_style activator open children style
  | Anchored c => Menu _flatten_style activator open c children style
  end.

(** The binding a render of the component works on: the caller's, or the one
    in the hook slot. *)
Definition bound (value : open_arg) (r : nat) (σ : state) : Prop :=
  match value with
  | OpenReactive r' => r' = r
  | OpenBool _ => memo σ = Some r
  end.

(** The state after [r.set(x)]. *)
Definition written (r : nat) (x : bool) (σ : state) : state :=
  {| heap := <[r := x]> (heap σ); memo := memo σ |}.

(** A style normaliser to run the components on concrete inputs: strings
    pass through, anything else has no string form. *)
Definition plain_style (s : option style_spec) : option string :=
  match s with
  | Some (StyleStr t) => Some t
  | _ => None
  end.

(** The widget side of [on_show_menu]: [menu.vue] calls the callback it was
    given once for every open/close event, in the order of the events. *)
Fixpoint fire (on_show_menu : bool → render unit) (events : list bool) : render unit :=
  match events with
  | [] => mret ()
  | x :: events => on_show_menu x ≫= λ _, fire on_show_menu events
  end.

(** ** The ToggleButtons documentation page

    [src/solara/website/pages/documentation/components/input/togglebuttons.py]
    builds the text of the page in the module variable [__doc__]. *)

(** The two components whose API the page documents, the arguments of the
    two [apidoc] calls. *)
Inductive documented : Type :=
  | ToggleButtonsSingle
  | ToggleButtonsMultiple.

(** togglebuttons.py, lines 1-7: the module docstring, the first value of
    [__doc__]. *)
Definition docstring : string := "
# ToggleButtons

ToggleButtons are in two flavours, for single, and for multiple selections.


".

(** togglebuttons.py, line 13. *)
Definition title : string := "ToggleButtons".

(** togglebuttons.py, lines 17-20: the four [__doc__ += ...], one after the
    other.  [apidoc] is [solara.website.utils.apidoc], an external
    collaborator: any function from a component to a string. *)
Definition __doc__ (apidoc : documented → string) : string :=
  let doc := docstring in
  let doc := doc +:+ "# ToggleButtonsSingle" in
  let doc := doc +:+ apidoc ToggleButtonsSingle in
  let doc := doc +:+ "# ToggleButtonsMultiple" in
  let doc := doc +:+ apidoc ToggleButtonsMultiple in
  doc.

(** The line feed, the character that ends a line of the page. *)
Definition LF : Ascii.ascii := Ascii.ascii_of_nat 10.

(** ** Reactive values: read, write, construction *)

Lemma Reactive_value_live r σ v :
  heap σ !! r = Some v → Reactive_value r σ = Some (Returned v σ).
Proof. intros H. unfold Reactive_value. by rewrite H. Qed.

Lemma Reactive_set_live r x σ :
  live r σ → Reactive_set r x σ = Some (Returned () (written r x σ)).
Proof. intros [v H]. unfold Reactive_set. by rewrite H. Qed.

Lemma written_read r x σ : heap (written r x σ) !! r = Some x.
Proof. simpl. apply lookup_insert_eq. Qed.

Lemma written_bound value r x σ :
  bound value r σ → bound value r (written r x σ).
Proof. by destruct value. Qed.

Lemma written_live r r' x σ : live r' σ → live r' (written r x σ).
Proof.
  unfold live. simpl. intros H.
  destruct (decide (r = r')) as [->|Hne].
  - rewrite lookup_insert_eq. eauto.
  - by rewrite lookup_insert_ne.
Qed.

Lemma use_reactive_bound value r σ :
  bound value r σ → use_reactive value σ = Some (Returned r σ).
Proof.
  destruct value as [r'|b]; simpl.
  - by intros ->.
  - by intros ->.
Qed.

Lemma use_reactive_ready value σ :
  ready value σ →
  ∃ r σ1, use_reactive value σ = Some (Returned r σ1)
          ∧ bound value r σ1 ∧ live r σ1.
Proof.
  destruct value as [r|b]; simpl.
  - intros H. by exists r, σ.
  - destruct (memo σ) as [r|] eqn:Hm.
    + intros H. by exists r, σ.
    + intros _. eexists _, _. split; [done|]. split; [done|].
      unfold live. simpl. rewrite lookup_insert_eq. eauto.
Qed.

Lemma use_reactive_fresh b h :
  let r := fresh (dom h) in
  use_reactive (OpenBool b) (fresh_instance h)
  = Some (Returned r {| heap := <[r := b]> h; memo := Some r |}).
Proof. done. Qed.

Lemma use_reactive_returns value σ :
  ∃ r σ1, use_reactive value σ = Some (Returned r σ1).
Proof.
  destruct value as [r|b]; simpl; [by eauto|].
  destruct (memo σ); eauto.
Qed.

(** ** One render, field by field *)

Section Fields.
Context {Element : Type}.
Variable _flatten_style : option style_spec → option string.

(** What a render emits once the binding [r] is known and holds [b]: the
    table of the three variants. *)
Definition emits (v : variant) (a : activator_arg Element)
    (ch : option (list Element)) (st : option style_spec)
    (r : nat) (b : bool) (cfg : MenuConfig Element) : Prop :=
  activator cfg = normalize_activator a
  ∧ show_menu cfg = b
  ∧ on_show_menu cfg = Some (Reactive_set r)
  ∧ children cfg = default [] ch
  ∧ style cfg = _flatten_style st
  ∧ context cfg = (match v with ContextTrigger => true | _ => false end)
  ∧ use_absolute cfg = (match v with Anchored _ => false | _ => true end)
  ∧ close_on_content_click cfg
    = (match v with Anchored c => default true c | _ => true end).

Lemma render_variant_bind v a o ch st σ r σ1 b :
  use_reactive (default (OpenBool false) o) σ = Some (Returned r σ1) →
  heap σ1 !! r = Some b →
  ∃ cfg, render_variant _flatten_style v a o ch st σ = Some (Returned cfg σ1)
         ∧ emits v a ch st r b cfg.
Proof.
  intros Hu Hb.
  destruct v; simpl;
    unfold ClickMenu, ContextMenu, Menu, mbind, render_bind, mret, render_ret;
    rewrite Hu; unfold Reactive_value; rewrite Hb;
    eexists; (split; [reflexivity|]); by repeat split.
Qed.

Lemma render_variant_ready v a o ch st σ :
  ready (default (OpenBool false) o) σ →
  ∃ r σ1 b cfg,
    use_reactive (default (OpenBool false) o) σ = Some (Returned r σ1)
    ∧ bound (default (OpenBool false) o) r σ1
    ∧ heap σ1 !! r = Some b
    ∧ render_variant _flatten_style v a o ch st σ = Some (Returned cfg σ1)
    ∧ emits v a ch st r b cfg.
Proof.
  intros H.
  destruct (use_reactive_ready _ _ H) as (r & σ1 & Hu & Hbd & [b Hb]).
  destruct (render_variant_bind v a o ch st σ r σ1 b Hu Hb) as (cfg & Hr & He).
  by exists r, σ1, b, cfg.
Qed.

Lemma render_variant_not_Raised v (a : activator_arg Element) o ch st σ e σ' :
  render_variant _flatten_style v a o ch st σ ≠ Some (Raised e σ').
Proof.
  destruct (use_reactive_returns (default (OpenBool false) o) σ) as (r & σ1 & Hu).
  destruct v; simpl;
    unfold ClickMenu, ContextMenu, Menu, mbind, render_bind, mret, render_ret;
    rewrite Hu; unfold Reactive_value; by destruct (heap σ1 !! r).
Qed.

Lemma render_variant_fresh v a b ch st h :
  ∃ cfg, render_variant _flatten_style v a (Some (OpenBool b)) ch st (fresh_instance h)
         = Some (Returned cfg {| heap := <[fresh (dom h) := b]> h;
                                 memo := Some (fresh (dom h)) |})
         ∧ emits v a ch st (fresh (dom h)) b cfg.
Proof.
  apply render_variant_bind; [apply use_reactive_fresh|].
  simpl. apply lookup_insert_eq.
Qed.

End Fields.

(** ** The anchored variant and [close_on_content_click=False] *)

(** C1, as stated, fails: [Menu] called with [close_on_content_click=False]
    and the raw boolean [open=False] on a component instance that has never
    been rendered returns a configuration; it does not raise
    [ConfigurationError]. *)
Lemma Menu_raw_open_not_ConfigurationError :
  (∃ cfg σ',
      Menu plain_style (ActElement 0) (Some (OpenBool false)) (Some false) None None
        (fresh_instance ∅) = Some (Returned cfg σ')
      ∧ close_on_content_click cfg = false
      ∧ show_menu cfg = false)
  ∧ ¬ (∃ σ',
      Menu plain_style (ActElement 0) (Some (OpenBool false)) (Some false) None None
        (fresh_instance ∅) = Some (Raised ConfigurationError σ')).
Proof.
  split.
  - destruct (render_variant_fresh plain_style (Anchored (Some false))
                (ActElement 0) false None None ∅) as (cfg & Hr & He).
    destruct He as (_ & Hshow & _ & _ & _ & _ & _ & Hc).
    exists cfg. eexists. split; [exact Hr|]. by split.
  - intros [σ' H].
    exact (render_variant_not_Raised plain_style (Anchored (Some false))
             (ActElement 0) (Some (OpenBool false)) None None (fresh_instance ∅)
             ConfigurationError σ' H).
Qed.

(** C1, amended: [Menu] with [close_on_content_click=False] raises nothing,
    whether [open] is a raw boolean or a caller-owned reactive value: the
    render returns a configuration with [close_on_content_click = false]
    whose [show_menu] is the value of the binding (the raw boolean itself on
    the first render). *)
Theorem Menu_close_on_content_click_False_returns
    {Element : Type} (_flatten_style : option style_spec → option string)
    (a : activator_arg Element) (value : open_arg)
    (ch : option (list Element)) (st : option style_spec) (σ : state) :
  ready value σ →
  ∃ cfg σ',
    Menu _flatten_style a (Some value) (Some false) ch st σ = Some (Returned cfg σ')
    ∧ close_on_content_click cfg = false
    ∧ Reactive_value
        (match value with OpenReactive r => r | OpenBool _ => default 0 (memo σ') end) σ'
      = Some (Returned (show_menu cfg) σ')
    ∧ match value with
      | OpenReactive r => σ' = σ
      | OpenBool b => memo σ = None → show_menu cfg = b
      end.
Proof.
  intros H.
  destruct (render_variant_ready _flatten_style (Anchored (Some false)) a
              (Some value) ch st σ H)
    as (r & σ1 & b & cfg & Hu & Hbd & Hb & Hr & He).
  destruct He as (_ & Hshow & _ & _ & _ & _ & _ & Hc).
  exists cfg, σ1. split; [exact Hr|]. split; [exact Hc|].
  simpl in Hu, Hbd. destruct value as [r'|b']; simpl in *.
  - subst r'. inversion Hu; subst σ1.
    rewrite Hshow. split; [by apply Reactive_value_live|]. done.
  - rewrite Hbd. simpl. rewrite Hshow.
    split; [by apply Reactive_value_live|].
    intros Hm. rewrite Hm in Hu. inversion Hu; subst r σ1.
    simpl in Hb. rewrite lookup_insert_eq in Hb. congruence.
Qed.

Lemma Menu_close_on_content_click_False_returns_witness :
  ready (OpenReactive 3) (State {[3 := true]} None)
  ∧ ∃ cfg σ',
      Menu plain_style (ActList [1; 2]) (Some (OpenReactive 3)) (Some false) None None
        (State {[3 := true]} None) = Some (Returned cfg σ')
      ∧ close_on_content_click cfg = false.
Proof.
  assert (Hready : ready (OpenReactive 3) (State {[3 := true]} None)).
  { vm_compute. eexists. reflexivity. }
  split; [exact Hready|].
  destruct (Menu_close_on_content_click_False_returns plain_style (ActList [1; 2])
              (OpenReactive 3) None None (State {[3 := true]} None) Hready)
    as (cfg & σ' & Hr & Hc & _).
  exists cfg, σ'. by split.
Defined.

(** ** Activator normalisation *)

(** C2, as stated, fails on the empty list: it is a list, so it is handed on
    unchanged, and the result has length 0. *)
Lemma normalize_activator_empty_list :
  normalize_activator (ActList (@nil nat)) = []
  ∧ ¬ (1 ≤ length (normalize_activator (ActList (@nil nat)))).
Proof. split; [reflexivity|]. simpl. lia. Qed.

(** C2, amended: a single element [e] is normalised to [[e]]; a list [l] is
    normalised to [l] itself, order kept, so the result is as long as [l];
    the result has length at least 1 for a single element and for a
    non-empty list.  Every variant emits the normalised activator. *)
Theorem normalize_activator_spec
    {Element : Type} (_flatten_style : option style_spec → option string)
    (e x : Element) (l : list Element) (v : variant) (a : activator_arg Element)
    (b : bool) (ch : option (list Element)) (st : option style_spec)
    (h : gmap nat bool) :
  normalize_activator (ActElement e) = [e]
  ∧ normalize_activator (ActList l) = l
  ∧ length (normalize_activator (ActList l)) = length l
  ∧ 1 ≤ length (normalize_activator (ActElement e))
  ∧ 1 ≤ length (normalize_activator (ActList (x :: l)))
  ∧ ∃ cfg σ',
      render_variant _flatten_style v a (Some (OpenBool b)) ch st (fresh_instance h)
      = Some (Returned cfg σ')
      ∧ activator cfg = normalize_activator a.
Proof.
  repeat split; simpl; try lia.
  destruct (render_variant_fresh _flatten_style v a b ch st h) as (cfg & Hr & He).
  exists cfg. eexists. split; [exact Hr|]. apply He.
Qed.

(** ** The configurations of the three variants *)

(** C3: [ClickMenu] called with the single activator [A] and no [open]
    argument, on its first render, returns a configuration with
    [activator = [A]], [show_menu = false], [context = false],
    [use_absolute = true] and [close_on_content_click = true]. *)
Theorem ClickMenu_single_activator_default_open
    {Element : Type} (_flatten_style : option style_spec → option string)
    (A : Element) (ch : option (list Element)) (st : option style_spec)
    (h : gmap nat bool) :
  ∃ cfg σ',
    ClickMenu _flatten_style (ActElement A) None ch st (fresh_instance h)
    = Some (Returned cfg σ')
    ∧ activator cfg = [A]
    ∧ show_menu cfg = false
    ∧ context cfg = false
    ∧ use_absolute cfg = true
    ∧ close_on_content_click cfg = true.
Proof.
  destruct (render_variant_bind _flatten_style Popup (ActElement A) None ch st
              (fresh_instance h) _ _ false (use_reactive_fresh false h))
    as (cfg & Hr & He).
  { simpl. apply lookup_insert_eq. }
  destruct He as (Ha & Hs & _ & _ & _ & Hc & Hu & Hk).
  exists cfg. eexists. split; [exact Hr|]. by repeat split.
Qed.

(** C4: [ContextMenu] called with the activator list [[A; B]] and
    [open=True] returns a configuration with [activator = [A; B]],
    [show_menu = true] and [context = true]; so it does for the raw boolean
    on the first render, and for a caller-owned reactive value that holds
    [True]. *)
Theorem ContextMenu_two_activators_open
    {Element : Type} (_flatten_style : option style_spec → option string)
    (A B : Element) (ch : option (list Element)) (st : option style_spec)
    (h : gmap nat bool) (r : nat) (m : option nat) :
  (∃ cfg σ',
      ContextMenu _flatten_style (ActList [A; B]) (Some (OpenBool true)) ch st
        (fresh_instance h) = Some (Returned cfg σ')
      ∧ activator cfg = [A; B]
      ∧ show_menu cfg = true
      ∧ context cfg = true)
  ∧ (∃ cfg σ',
      ContextMenu _flatten_style (ActList [A; B]) (Some (OpenReactive r)) ch st
        {| heap := <[r := true]> h; memo := m |} = Some (Returned cfg σ')
      ∧ activator cfg = [A; B]
      ∧ show_menu cfg = true
      ∧ context cfg = true).
Proof.
  split.
  - destruct (render_variant_fresh _flatten_style ContextTrigger (ActList [A; B])
                true ch st h) as (cfg & Hr & He).
    destruct He as (Ha & Hs & _ & _ & _ & Hc & _).
    exists cfg. eexists. split; [exact Hr|]. by repeat split.
  - destruct (render_variant_bind _flatten_style ContextTrigger (ActList [A; B])
                (Some (OpenReactive r)) ch st
                {| heap := <[r := true]> h; memo := m |} r _ true eq_refl)
      as (cfg & Hr & He).
    { simpl. apply lookup_insert_eq. }
    destruct He as (Ha & Hs & _ & _ & _ & Hc & _).
    exists cfg. eexists. split; [exact Hr|]. by repeat split.
Qed.

(** C5: every render of [Menu] returns a configuration with
    [use_absolute = false] whose [close_on_content_click] is the caller's
    value, [true] when the caller gives none; in particular [Menu] with
    the default [close_on_content_click] and the raw [open=False] returns,
    with [use_absolute = false]. *)
Theorem Menu_use_absolute_close_on_content_click
    {Element : Type} (_flatten_style : option style_spec → option string)
    (a : activator_arg Element) (o : option open_arg) (c : option bool)
    (ch : option (list Element)) (st : option style_spec) (σ : state) :
  ready (default (OpenBool false) o) σ →
  (∃ cfg σ',
      Menu _flatten_style a o c ch st σ = Some (Returned cfg σ')
      ∧ use_absolute cfg = false
      ∧ close_on_content_click cfg = default true c)
  ∧ (∀ h, ∃ cfg σ',
      Menu _flatten_style a (Some (OpenBool false)) None ch st (fresh_instance h)
      = Some (Returned cfg σ')
      ∧ use_absolute cfg = false
      ∧ close_on_content_click cfg = true
      ∧ show_menu cfg = false).
Proof.
  intros H. split.
  - destruct (render_variant_ready _flatten_style (Anchored c) a o ch st σ H)
      as (r & σ1 & b & cfg & _ & _ & _ & Hr & He).
    destruct He as (_ & _ & _ & _ & _ & _ & Hu & Hc).
    exists cfg, σ1. by repeat split.
  - intros h.
    destruct (render_variant_fresh _flatten_style (Anchored None) a false ch st h)
      as (cfg & Hr & He).
    destruct He as (_ & Hs & _ & _ & _ & _ & Hu & Hc).
    exists cfg. eexists. split; [exact Hr|]. by repeat split.
Qed.

Lemma Menu_use_absolute_close_on_content_click_witness :
  ready (default (OpenBool false) (Some (OpenReactive 5))) (State {[5 := false]} (Some 5))
  ∧ ∃ cfg σ',
      Menu plain_style (ActElement 1) (Some (OpenReactive 5)) (Some false)
        (Some [2; 3]) (Some (StyleStr "width: 10px")) (State {[5 := false]} (Some 5))
      = Some (Returned cfg σ')
      ∧ use_absolute cfg = false
      ∧ close_on_content_click cfg = default true (Some false).
Proof.
  assert (Hready : ready (default (OpenBool false) (Some (OpenReactive 5)))
                     (State {[5 := false]} (Some 5))).
  { vm_compute. eexists. reflexivity. }
  split; [exact Hready|].
  exact (proj1 (Menu_use_absolute_close_on_content_click plain_style (ActElement 1)
                  (Some (OpenReactive 5)) (Some false) (Some [2; 3])
                  (Some (StyleStr "width: 10px")) (State {[5 := false]} (Some 5))
                  Hready)).
Defined.

(** ** The open binding *)

(** C6: every variant hands the widget [open.set] as [on_show_menu] and
    [open.value] as [show_menu]; calling [on_show_menu(x)] makes the next
    read of the binding, and the [show_menu] of the next render, [x]; a
    second call with [y] then makes the read [y] (with [x = true] and
    [y = false]: open, then closed). *)
Theorem on_show_menu_round_trip
    {Element : Type} (_flatten_style : option style_spec → option string)
    (v : variant) (a : activator_arg Element) (o : option open_arg)
    (ch : option (list Element)) (st : option style_spec) (σ : state) :
  ready (default (OpenBool false) o) σ →
  ∃ r cfg σ1 set,
    render_variant _flatten_style v a o ch st σ = Some (Returned cfg σ1)
    ∧ use_reactive (default (OpenBool false) o) σ = Some (Returned r σ1)
    ∧ on_show_menu cfg = Some set
    ∧ set = Reactive_set r
    ∧ Reactive_value r σ1 = Some (Returned (show_menu cfg) σ1)
    ∧ ∀ x y : bool,
        let σ2 := written r x σ1 in
        let σ3 := written r y σ2 in
        set x σ1 = Some (Returned () σ2)
        ∧ Reactive_value r σ2 = Some (Returned x σ2)
        ∧ (∃ cfg2, render_variant _flatten_style v a o ch st σ2
                   = Some (Returned cfg2 σ2)
                   ∧ show_menu cfg2 = x)
        ∧ set y σ2 = Some (Returned () σ3)
        ∧ Reactive_value r σ3 = Some (Returned y σ3).
Proof.
  intros H.
  destruct (render_variant_ready _flatten_style v a o ch st σ H)
    as (r & σ1 & b & cfg & Hu & Hbd & Hb & Hr & He).
  destruct He as (_ & Hshow & Hset & _).
  assert (Hlive : live r σ1) by (by exists b).
  exists r, cfg, σ1, (Reactive_set r).
  split; [exact Hr|]. split; [exact Hu|]. split; [exact Hset|]. split; [done|].
  split; [rewrite Hshow; by apply Reactive_value_live|].
  intros x y σ2 σ3.
  split; [by apply Reactive_set_live|].
  split; [apply Reactive_value_live, written_read|].
  split.
  - destruct (render_variant_bind _flatten_style v a o ch st σ2 r σ2 x)
      as (cfg2 & Hr2 & He2).
    + apply use_reactive_bound. by apply written_bound.
    + apply written_read.
    + exists cfg2. split; [exact Hr2|]. apply He2.
  - split; [apply Reactive_set_live; by apply written_live|].
    apply Reactive_value_live, written_read.
Qed.

Lemma on_show_menu_round_trip_witness :
  ready (default (OpenBool false) (Some (OpenBool false))) (fresh_instance {[0 := true]})
  ∧ ∃ r cfg σ1 set,
      render_variant plain_style ContextTrigger (ActElement 4) (Some (OpenBool false))
        None None (fresh_instance {[0 := true]}) = Some (Returned cfg σ1)
      ∧ on_show_menu cfg = Some set
      ∧ Reactive_value r σ1 = Some (Returned (show_menu cfg) σ1)
      ∧ set true σ1 = Some (Returned () (written r true σ1))
      ∧ Reactive_value r (written r true σ1) = Some (Returned true (written r true σ1))
      ∧ set false (written r true σ1)
        = Some (Returned () (written r false (written r true σ1)))
      ∧ Reactive_value r (written r false (written r true σ1))
        = Some (Returned false (written r false (written r true σ1))).
Proof.
  assert (Hready : ready (default (OpenBool false) (Some (OpenBool false)))
                     (fresh_instance {[0 := true]})).
  { vm_compute. exact I. }
  split; [exact Hready|].
  destruct (on_show_menu_round_trip plain_style ContextTrigger (ActElement 4)
              (Some (OpenBool false)) None None (fresh_instance {[0 := true]}) Hready)
    as (r & cfg & σ1 & set & Hr & _ & Hset & _ & Hv & Hrt).
  destruct (Hrt true false) as (H1 & H2 & _ & H3 & H4).
  exists r, cfg, σ1, set. by repeat split.
Defined.

(** C7: for every boolean [b], the reactive value [use_reactive] builds for
    the raw [open = b] is a new cell, none of the caller's, that holds [b]
    right after construction, and the first render of every variant has
    [show_menu = b]. *)
Theorem use_reactive_raw_initial_value
    {Element : Type} (_flatten_style : option style_spec → option string)
    (v : variant) (a : activator_arg Element) (b : bool)
    (ch : option (list Element)) (st : option style_spec) (h : gmap nat bool) :
  ∃ r σ1 cfg,
    use_reactive (OpenBool b) (fresh_instance h) = Some (Returned r σ1)
    ∧ (r ∉ dom h)
    ∧ memo σ1 = Some r
    ∧ Reactive_value r σ1 = Some (Returned b σ1)
    ∧ render_variant _flatten_style v a (Some (OpenBool b)) ch st (fresh_instance h)
      = Some (Returned cfg σ1)
    ∧ show_menu cfg = b.
Proof.
  destruct (render_variant_fresh _flatten_style v a b ch st h) as (cfg & Hr & He).
  destruct He as (_ & Hs & _).
  eexists _, _, cfg. split; [apply use_reactive_fresh|].
  split; [apply is_fresh|]. split; [done|].
  split; [apply Reactive_value_live; simpl; apply lookup_insert_eq|].
  by split.
Qed.

(** ** Algebra of the normalisation, and the two popup variants *)

(** C9: normalising the normalised activator changes nothing, and a variant
    called with the normalised activator renders what it renders with the
    original one. *)
Theorem normalize_activator_idempotent
    {Element : Type} (_flatten_style : option style_spec → option string)
    (v : variant) (a : activator_arg Element) (o : option open_arg)
    (ch : option (list Element)) (st : option style_spec) (σ : state) :
  normalize_activator (ActList (normalize_activator a)) = normalize_activator a
  ∧ render_variant _flatten_style v (ActList (normalize_activator a)) o ch st σ
    = render_variant _flatten_style v a o ch st σ.
Proof. split; [done|]. by destruct v, a. Qed.

(** C10: on the same arguments and state, [ClickMenu] and [ContextMenu]
    return configurations that agree on [activator], [show_menu],
    [on_show_menu], [children] and [style]; [context] is [false] for the
    first and [true] for the second; [use_absolute] and
    [close_on_content_click] are [true] for both, whatever the caller
    passes. *)
Theorem ClickMenu_ContextMenu_differ_in_context
    {Element : Type} (_flatten_style : option style_spec → option string)
    (a : activator_arg Element) (o : option open_arg)
    (ch : option (list Element)) (st : option style_spec) (σ : state) :
  ready (default (OpenBool false) o) σ →
  ∃ c1 c2 σ',
    ClickMenu _flatten_style a o ch st σ = Some (Returned c1 σ')
    ∧ ContextMenu _flatten_style a o ch st σ = Some (Returned c2 σ')
    ∧ activator c1 = activator c2
    ∧ show_menu c1 = show_menu c2
    ∧ on_show_menu c1 = on_show_menu c2
    ∧ children c1 = children c2
    ∧ style c1 = style c2
    ∧ context c1 = false ∧ context c2 = true
    ∧ use_absolute c1 = true ∧ use_absolute c2 = true
    ∧ close_on_content_click c1 = true ∧ close_on_content_click c2 = true.
Proof.
  intros H.
  destruct (use_reactive_ready _ _ H) as (r & σ1 & Hu & _ & [b Hb]).
  destruct (render_variant_bind _flatten_style Popup a o ch st σ r σ1 b Hu Hb)
    as (c1 & Hr1 & E1).
  destruct (render_variant_bind _flatten_style ContextTrigger a o ch st σ r σ1 b Hu Hb)
    as (c2 & Hr2 & E2).
  destruct E1 as (A1 & S1 & O1 & C1 & T1 & X1 & U1 & K1).
  destruct E2 as (A2 & S2 & O2 & C2 & T2 & X2 & U2 & K2).
  exists c1, c2, σ1. split; [exact Hr1|]. split; [exact Hr2|].
  repeat split; congruence.
Qed.

Lemma ClickMenu_ContextMenu_differ_in_context_witness :
  ready (default (OpenBool false) (Some (OpenReactive 2))) (State {[2 := true]} None)
  ∧ ∃ c1 c2 σ',
      ClickMenu plain_style (ActElement 9) (Some (OpenReactive 2)) (Some [8]) None
        (State {[2 := true]} None) = Some (Returned c1 σ')
      ∧ ContextMenu plain_style (ActElement 9) (Some (OpenReactive 2)) (Some [8]) None
          (State {[2 := true]} None) = Some (Returned c2 σ')
      ∧ context c1 = false ∧ context c2 = true.
Proof.
  assert (Hready : ready (default (OpenBool false) (Some (OpenReactive 2)))
                     (State {[2 := true]} None)).
  { vm_compute. eexists. reflexivity. }
  split; [exact Hready|].
  destruct (ClickMenu_ContextMenu_differ_in_context plain_style (ActElement 9)
              (Some (OpenReactive 2)) (Some [8]) None (State {[2 := true]} None) Hready)
    as (c1 & c2 & σ' & H1 & H2 & _ & _ & _ & _ & _ & X1 & X2 & _).
  exists c1, c2, σ'. by repeat split.
Defined.


(** * Further properties of the three components *)

Lemma emits_unique {Element : Type}
    (_flatten_style : option style_spec → option string)
    (v : variant) (a : activator_arg Element) (ch : option (list Element))
    (st : option style_spec) (r : nat) (b : bool) (c1 c2 : MenuConfig Element) :
  emits _flatten_style v a ch st r b c1 →
  emits _flatten_style v a ch st r b c2 →
  c1 = c2.
Proof.
  intros (A1 & S1 & O1 & C1 & T1 & X1 & U1 & K1) (A2 & S2 & O2 & C2 & T2 & X2 & U2 & K2).
  destruct c1, c2; simpl in *. congruence.
Qed.

Lemma fire_Reactive_set (value : open_arg) (r : nat) (events : list bool) :
  ∀ (σ1 : state) (b : bool),
    bound value r σ1 → heap σ1 !! r = Some b →
    ∃ σ2, fire (Reactive_set r) events σ1 = Some (Returned () σ2)
          ∧ bound value r σ2
          ∧ heap σ2 !! r = Some (default b (last events))
          ∧ memo σ2 = memo σ1
          ∧ ∀ r', r' ≠ r → heap σ2 !! r' = heap σ1 !! r'.
Proof.
  induction events as [|x events IH]; intros σ1 b Hbd Hb.
  - exists σ1. by repeat split.
  - destruct (IH (written r x σ1) x) as (σ2 & Hf & Hbd2 & Hb2 & Hm & Hfr).
    { by apply written_bound. }
    { apply written_read. }
    exists σ2. split.
    + simpl. unfold mbind, render_bind.
      rewrite (Reactive_set_live r x σ1) by (by exists b). exact Hf.
    + split; [exact Hbd2|]. split.
      * rewrite Hb2, last_cons. by destruct (last events).
      * split; [exact Hm|]. intros r' Hne. rewrite (Hfr r' Hne). simpl.
        by rewrite lookup_insert_ne.
Qed.

(** Rendering again with the same arguments, nothing having happened in
    between, returns the same configuration and changes nothing: the second
    render neither allocates nor writes. *)
Theorem render_variant_again
    {Element : Type} (_flatten_style : option style_spec → option string)
    (v : variant) (a : activator_arg Element) (o : option open_arg)
    (ch : option (list Element)) (st : option style_spec) (σ : state) :
  ready (default (OpenBool false) o) σ →
  ∃ cfg σ1,
    render_variant _flatten_style v a o ch st σ = Some (Returned cfg σ1)
    ∧ render_variant _flatten_style v a o ch st σ1 = Some (Returned cfg σ1).
Proof.
  intros H.
  destruct (render_variant_ready _flatten_style v a o ch st σ H)
    as (r & σ1 & b & cfg & Hu & Hbd & Hb & Hr & He).
  exists cfg, σ1. split; [exact Hr|].
  destruct (render_variant_bind _flatten_style v a o ch st σ1 r σ1 b
              (use_reactive_bound _ _ _ Hbd) Hb) as (cfg' & Hr' & He').
  by rewrite (emits_unique _ _ _ _ _ _ _ _ _ He He').
Qed.

Lemma render_variant_again_witness :
  ready (default (OpenBool false) (Some (OpenBool true))) (fresh_instance {[0 := false]})
  ∧ ∃ cfg σ1,
      render_variant plain_style Popup (ActList [3; 3]) (Some (OpenBool true)) None None
        (fresh_instance {[0 := false]}) = Some (Returned cfg σ1)
      ∧ render_variant plain_style Popup (ActList [3; 3]) (Some (OpenBool true)) None None
          σ1 = Some (Returned cfg σ1).
Proof.
  assert (H : ready (default (OpenBool false) (Some (OpenBool true)))
                (fresh_instance {[0 := false]})).
  { vm_compute. exact I. }
  split; [exact H|].
  exact (render_variant_again plain_style Popup (ActList [3; 3]) (Some (OpenBool true))
           None None (fresh_instance {[0 := false]}) H).
Defined.

(** After any sequence of open/close events delivered through
    [on_show_menu], the next render shows the last event (the old value when
    there was none), every other field of the configuration is what it was,
    and no reactive value but the menu's own binding has changed. *)
Theorem on_show_menu_events
    {Element : Type} (_flatten_style : option style_spec → option string)
    (v : variant) (a : activator_arg Element) (o : option open_arg)
    (ch : option (list Element)) (st : option style_spec) (σ : state)
    (events : list bool) :
  ready (default (OpenBool false) o) σ →
  ∃ r cfg σ1 set σ2 cfg2,
    render_variant _flatten_style v a o ch st σ = Some (Returned cfg σ1)
    ∧ use_reactive (default (OpenBool false) o) σ = Some (Returned r σ1)
    ∧ on_show_menu cfg = Some set
    ∧ fire set events σ1 = Some (Returned () σ2)
    ∧ render_variant _flatten_style v a o ch st σ2 = Some (Returned cfg2 σ2)
    ∧ show_menu cfg2 = default (show_menu cfg) (last events)
    ∧ activator cfg2 = activator cfg
    ∧ on_show_menu cfg2 = on_show_menu cfg
    ∧ children cfg2 = children cfg
    ∧ style cfg2 = style cfg
    ∧ context cfg2 = context cfg
    ∧ use_absolute cfg2 = use_absolute cfg
    ∧ close_on_content_click cfg2 = close_on_content_click cfg
    ∧ (∀ r', r' ≠ r → heap σ2 !! r' = heap σ1 !! r').
Proof.
  intros H.
  destruct (render_variant_ready _flatten_style v a o ch st σ H)
    as (r & σ1 & b & cfg & Hu & Hbd & Hb & Hr & He).
  destruct (fire_Reactive_set _ r events σ1 b Hbd Hb)
    as (σ2 & Hf & Hbd2 & Hb2 & _ & Hfr).
  destruct (render_variant_bind _flatten_style v a o ch st σ2 r σ2 _
              (use_reactive_bound _ _ _ Hbd2) Hb2) as (cfg2 & Hr2 & He2).
  destruct He as (A1 & S1 & O1 & C1 & T1 & X1 & U1 & K1).
  destruct He2 as (A2 & S2 & O2 & C2 & T2 & X2 & U2 & K2).
  exists r, cfg, σ1, (Reactive_set r), σ2, cfg2.
  split; [exact Hr|]. split; [exact Hu|]. split; [exact O1|].
  split; [exact Hf|]. split; [exact Hr2|].
  split; [by rewrite S2, S1|].
  repeat split; try congruence. exact Hfr.
Qed.

Lemma on_show_menu_events_witness :
  ready (default (OpenBool false) None) (fresh_instance {[0 := true]})
  ∧ ∃ cfg σ1 set σ2 cfg2,
      render_variant plain_style (Anchored None) (ActElement 5) None None None
        (fresh_instance {[0 := true]}) = Some (Returned cfg σ1)
      ∧ on_show_menu cfg = Some set
      ∧ fire set [true; false; true] σ1 = Some (Returned () σ2)
      ∧ render_variant plain_style (Anchored None) (ActElement 5) None None None σ2
        = Some (Returned cfg2 σ2)
      ∧ show_menu cfg2 = default (show_menu cfg) (last [true; false; true]).
Proof.
  assert (H : ready (default (OpenBool false) None) (fresh_instance {[0 := true]})).
  { vm_compute. exact I. }
  split; [exact H|].
  destruct (on_show_menu_events plain_style (Anchored None) (ActElement 5) None None None
              (fresh_instance {[0 := true]}) [true; false; true] H)
    as (r & cfg & σ1 & set & σ2 & cfg2 & Hr & _ & Hs & Hf & Hr2 & Hshow & _).
  exists cfg, σ1, set, σ2, cfg2. by repeat split.
Defined.

(** [Menu] and [ClickMenu], called with the same arguments on the same
    state, return configurations that differ in [use_absolute] ([false]
    against [true]) and in [close_on_content_click] (the caller's value
    against [true]) and in nothing else; with [close_on_content_click]
    omitted or [True], [use_absolute] is the only difference. *)
Theorem Menu_ClickMenu_differ_in_use_absolute
    {Element : Type} (_flatten_style : option style_spec → option string)
    (a : activator_arg Element) (o : option open_arg) (c : option bool)
    (ch : option (list Element)) (st : option style_spec) (σ : state) :
  ready (default (OpenBool false) o) σ →
  ∃ c1 c2 σ',
    ClickMenu _flatten_style a o ch st σ = Some (Returned c1 σ')
    ∧ Menu _flatten_style a o c ch st σ = Some (Returned c2 σ')
    ∧ activator c2 = activator c1
    ∧ show_menu c2 = show_menu c1
    ∧ on_show_menu c2 = on_show_menu c1
    ∧ children c2 = children c1
    ∧ style c2 = style c1
    ∧ context c2 = context c1
    ∧ use_absolute c1 = true ∧ use_absolute c2 = false
    ∧ close_on_content_click c1 = true
    ∧ close_on_content_click c2 = default true c.
Proof.
  intros H.
  destruct (use_reactive_ready _ _ H) as (r & σ1 & Hu & _ & [b Hb]).
  destruct (render_variant_bind _flatten_style Popup a o ch st σ r σ1 b Hu Hb)
    as (c1 & Hr1 & E1).
  destruct (render_variant_bind _flatten_style (Anchored c) a o ch st σ r σ1 b Hu Hb)
    as (c2 & Hr2 & E2).
  destruct E1 as (A1 & S1 & O1 & C1 & T1 & X1 & U1 & K1).
  destruct E2 as (A2 & S2 & O2 & C2 & T2 & X2 & U2 & K2).
  exists c1, c2, σ1. split; [exact Hr1|]. split; [exact Hr2|].
  repeat split; congruence.
Qed.

Lemma Menu_ClickMenu_differ_in_use_absolute_witness :
  ready (default (OpenBool false) (Some (OpenReactive 1))) (State {[1 := false]} None)
  ∧ ∃ c1 c2 σ',
      ClickMenu plain_style (ActList [7; 8]) (Some (OpenReactive 1)) None None
        (State {[1 := false]} None) = Some (Returned c1 σ')
      ∧ Menu plain_style (ActList [7; 8]) (Some (OpenReactive 1)) (Some false) None None
          (State {[1 := false]} None) = Some (Returned c2 σ')
      ∧ use_absolute c1 = true ∧ use_absolute c2 = false.
Proof.
  assert (H : ready (default (OpenBool false) (Some (OpenReactive 1)))
                (State {[1 := false]} None)).
  { vm_compute. eexists. reflexivity. }
  split; [exact H|].
  destruct (Menu_ClickMenu_differ_in_use_absolute plain_style (ActList [7; 8])
              (Some (OpenReactive 1)) (Some false) None None (State {[1 := false]} None) H)
    as (c1 & c2 & σ' & H1 & H2 & _ & _ & _ & _ & _ & _ & U1 & U2 & _).
  exists c1, c2, σ'. by repeat split.
Defined.

(** Every variant hands the caller's [children] to the widget unchanged (the
    empty list when the argument is omitted) and hands it, as [style], what
    [_flatten_style] makes of the caller's [style]; [_flatten_style] is
    called on an omitted style too. *)
Theorem render_variant_children_style
    {Element : Type} (_flatten_style : option style_spec → option string)
    (v : variant) (a : activator_arg Element) (o : option open_arg)
    (ch : option (list Element)) (st : option style_spec) (σ : state) :
  ready (default (OpenBool false) o) σ →
  ∃ cfg σ',
    render_variant _flatten_style v a o ch st σ = Some (Returned cfg σ')
    ∧ children cfg = default [] ch
    ∧ style cfg = _flatten_style st.
Proof.
  intros H.
  destruct (render_variant_ready _flatten_style v a o ch st σ H)
    as (r & σ1 & b & cfg & _ & _ & _ & Hr & He).
  destruct He as (_ & _ & _ & C1 & T1 & _).
  by exists cfg, σ1.
Qed.

Lemma render_variant_children_style_witness :
  ready (default (OpenBool false) None) (fresh_instance ∅)
  ∧ ∃ cfg σ',
      render_variant plain_style ContextTrigger (ActElement 1) None (Some [2; 3])
        (Some (StyleStr "color: red")) (fresh_instance ∅) = Some (Returned cfg σ')
      ∧ children cfg = default [] (Some [2; 3])
      ∧ style cfg = plain_style (Some (StyleStr "color: red")).
Proof.
  assert (H : ready (default (OpenBool false) None) (fresh_instance ∅)).
  { vm_compute. exact I. }
  split; [exact H|].
  exact (render_variant_children_style plain_style ContextTrigger (ActElement 1) None
           (Some [2; 3]) (Some (StyleStr "color: red")) (fresh_instance ∅) H).
Defined.

(** Two menus, of any variants, that are given the same caller-owned
    reactive [open] share their state: an [on_show_menu(x)] of the first is
    what the second shows on its next render, and what the caller reads. *)
Theorem shared_open_two_menus
    {Element : Type} (_flatten_style : option style_spec → option string)
    (v1 v2 : variant) (a1 a2 : activator_arg Element) (r : nat)
    (ch1 ch2 : option (list Element)) (st1 st2 : option style_spec)
    (σ : state) (x : bool) :
  live r σ →
  ∃ c1 set c2,
    render_variant _flatten_style v1 a1 (Some (OpenReactive r)) ch1 st1 σ
    = Some (Returned c1 σ)
    ∧ on_show_menu c1 = Some set
    ∧ set x σ = Some (Returned () (written r x σ))
    ∧ render_variant _flatten_style v2 a2 (Some (OpenReactive r)) ch2 st2 (written r x σ)
      = Some (Returned c2 (written r x σ))
    ∧ show_menu c2 = x
    ∧ Reactive_value r (written r x σ) = Some (Returned x (written r x σ)).
Proof.
  intros [b Hb].
  destruct (render_variant_bind _flatten_style v1 a1 (Some (OpenReactive r)) ch1 st1
              σ r σ b eq_refl Hb) as (c1 & Hr1 & E1).
  destruct (render_variant_bind _flatten_style v2 a2 (Some (OpenReactive r)) ch2 st2
              (written r x σ) r (written r x σ) x eq_refl (written_read r x σ))
    as (c2 & Hr2 & E2).
  exists c1, (Reactive_set r), c2.
  split; [exact Hr1|]. split; [apply E1|].
  split; [apply Reactive_set_live; by exists b|].
  split; [exact Hr2|]. split; [apply E2|].
  apply Reactive_value_live, written_read.
Qed.

Lemma shared_open_two_menus_witness :
  live 2 (State {[2 := false]} None)
  ∧ ∃ c1 set c2,
      render_variant plain_style Popup (ActElement 10) (Some (OpenReactive 2)) None None
        (State {[2 := false]} None) = Some (Returned c1 (State {[2 := false]} None))
      ∧ on_show_menu c1 = Some set
      ∧ set true (State {[2 := false]} None)
        = Some (Returned () (written 2 true (State {[2 := false]} None)))
      ∧ render_variant plain_style (Anchored None) (ActElement 11)
          (Some (OpenReactive 2)) None None (written 2 true (State {[2 := false]} None))
        = Some (Returned c2 (written 2 true (State {[2 := false]} None)))
      ∧ show_menu c2 = true.
Proof.
  assert (H : live 2 (State {[2 := false]} None)).
  { vm_compute. eexists. reflexivity. }
  split; [exact H|].
  destruct (shared_open_two_menus plain_style Popup (Anchored None) (ActElement 10)
              (ActElement 11) 2 None None None None (State {[2 := false]} None) true H)
    as (c1 & set & c2 & H1 & H2 & H3 & H4 & H5 & _).
  exists c1, set, c2. by repeat split.
Defined.



(** * The ToggleButtons page *)

Lemma string_length_app (s1 s2 : string) :
  String.length (s1 +:+ s2) = String.length s1 + String.length s2.
Proof. induction s1 as [|c s1 IH]; [done|]. exact (f_equal S IH). Qed.

Lemma string_app_assoc (s1 s2 s3 : string) :
  (s1 +:+ s2) +:+ s3 = s1 +:+ (s2 +:+ s3).
Proof. induction s1 as [|c s1 IH]; [done|]. exact (f_equal (String c) IH). Qed.

Lemma string_get_lt (s : string) :
  ∀ n c, String.get n s = Some c → n < String.length s.
Proof.
  induction s as [|a s IH]; intros n c H; simpl in *; [done|].
  destruct n as [|n]; [lia|]. apply IH in H. lia.
Qed.

Lemma string_get_app_l (s1 s2 : string) :
  ∀ n, n < String.length s1 → String.get n (s1 +:+ s2) = String.get n s1.
Proof.
  induction s1 as [|a s1 IH]; intros n H; simpl in H; [lia|].
  destruct n as [|n]; [done|]. apply (IH n). lia.
Qed.

Lemma string_get_app_r (s1 s2 : string) (n : nat) :
  String.get (String.length s1 + n) (s1 +:+ s2) = String.get n s2.
Proof. induction s1 as [|a s1 IH]; [done|]. exact IH. Qed.

Lemma string_substring_app_r (s1 s2 : string) (n m : nat) :
  String.substring (String.length s1 + n) m (s1 +:+ s2) = String.substring n m s2.
Proof. induction s1 as [|a s1 IH]; [done|]. exact IH. Qed.

Lemma string_substring_app_l (s1 s2 : string) :
  String.substring 0 (String.length s1) (s1 +:+ s2) = s1.
Proof.
  induction s1 as [|a s1 IH].
  - by destruct s2.
  - exact (f_equal (String a) IH).
Qed.

Lemma __doc__layout (apidoc : documented → string) :
  __doc__ apidoc
  = docstring +:+ ("# ToggleButtonsSingle" +:+ (apidoc ToggleButtonsSingle
      +:+ ("# ToggleButtonsMultiple" +:+ apidoc ToggleButtonsMultiple))).
Proof. unfold __doc__. cbv zeta. by rewrite !string_app_assoc. Qed.

Lemma string_substring_at (p h r : string) :
  String.substring (String.length p) (String.length h) (p +:+ (h +:+ r)) = h.
Proof.
  rewrite <- (Nat.add_0_r (String.length p)), string_substring_app_r.
  apply string_substring_app_l.
Qed.

Lemma string_get_last_of (p a r : string) (c : Ascii.ascii) :
  String.get (String.length a - 1) a = Some c →
  String.get (String.length p + String.length a - 1) (p +:+ (a +:+ r)) = Some c.
Proof.
  intros H. pose proof (string_get_lt _ _ _ H) as Hlt.
  replace (String.length p + String.length a - 1)
    with (String.length p + (String.length a - 1)) by lia.
  rewrite string_get_app_r, string_get_app_l by lia. exact H.
Qed.

(** The page begins with the module docstring, whatever [apidoc] returns;
    the heading [# ToggleButtonsSingle] comes right behind it, at the start
    of a line (the docstring ends in a line feed), and the text [apidoc]
    returns for [ToggleButtonsSingle] right behind the heading. *)
Theorem doc_single_heading_starts_line (apidoc : documented → string) :
  String.substring 0 (String.length docstring) (__doc__ apidoc) = docstring
  ∧ String.get (String.length docstring - 1) (__doc__ apidoc) = Some LF
  ∧ String.substring (String.length docstring) 21 (__doc__ apidoc)
    = "# ToggleButtonsSingle"
  ∧ String.substring (String.length docstring + 21)
      (String.length (apidoc ToggleButtonsSingle)) (__doc__ apidoc)
    = apidoc ToggleButtonsSingle.
Proof.
  rewrite __doc__layout. split; [apply string_substring_app_l|]. split.
  - rewrite string_get_app_l by (vm_compute; lia). by vm_compute.
  - split.
    + apply (string_substring_at docstring "# ToggleButtonsSingle").
    + rewrite <- string_app_assoc.
      change 21 with (String.length "# ToggleButtonsSingle").
      rewrite <- string_length_app. apply string_substring_at.
Qed.

(** The heading [# ToggleButtonsMultiple] comes right behind the text
    [apidoc] returns for [ToggleButtonsSingle], with nothing in between: the
    character before the heading is the last character of that text, so the
    heading starts a line exactly when the text ends in a line feed. *)
Theorem doc_multiple_heading_follows_apidoc
    (apidoc : documented → string) (c : Ascii.ascii) :
  String.get (String.length (apidoc ToggleButtonsSingle) - 1)
    (apidoc ToggleButtonsSingle) = Some c →
  String.substring
    (String.length docstring + 21 + String.length (apidoc ToggleButtonsSingle)) 23
    (__doc__ apidoc) = "# ToggleButtonsMultiple"
  ∧ String.get
      (String.length docstring + 21 + String.length (apidoc ToggleButtonsSingle) - 1)
      (__doc__ apidoc) = Some c.
Proof.
  intros H. rewrite __doc__layout.
  set (a1 := apidoc ToggleButtonsSingle) in *.
  set (rest := "# ToggleButtonsMultiple" +:+ apidoc ToggleButtonsMultiple).
  rewrite <- (string_app_assoc docstring "# ToggleButtonsSingle" (a1 +:+ rest)).
  assert (Hlen : String.length docstring + 21
                 = String.length (docstring +:+ "# ToggleButtonsSingle")).
  { by rewrite string_length_app. }
  rewrite Hlen. split.
  - rewrite <- string_length_app, <- string_app_assoc.
    apply (string_substring_at _ "# ToggleButtonsMultiple").
  - by apply string_get_last_of.
Qed.

Lemma doc_multiple_heading_follows_apidoc_witness :
  String.get (String.length ("one" +:+ String LF "") - 1) ("one" +:+ String LF "")
  = Some LF
  ∧ String.get
      (String.length docstring + 21 + String.length ("one" +:+ String LF "") - 1)
      (__doc__ (λ _, "one" +:+ String LF "")) = Some LF.
Proof.
  assert (H : String.get (String.length ("one" +:+ String LF "") - 1)
                ("one" +:+ String LF "") = Some LF).
  { vm_compute. reflexivity. }
  split; [exact H|].
  exact (proj2 (doc_multiple_heading_follows_apidoc (λ _, "one" +:+ String LF "") LF H)).
Defined.

(** When [apidoc] returns the empty string for [ToggleButtonsSingle], the two
    headings run together on one line: no separator is put between them. *)
Theorem doc_headings_run_together (apidoc : documented → string) :
  apidoc ToggleButtonsSingle = "" →
  String.substring (String.length docstring) 44 (__doc__ apidoc)
  = "# ToggleButtonsSingle# ToggleButtonsMultiple".
Proof.
  intros H. rewrite __doc__layout, H.
  change ("# ToggleButtonsSingle" +:+ "" +:+ "# ToggleButtonsMultiple"
          +:+ apidoc ToggleButtonsMultiple)
    with ("# ToggleButtonsSingle# ToggleButtonsMultiple"
          +:+ apidoc ToggleButtonsMultiple).
  apply (string_substring_at docstring "# ToggleButtonsSingle# ToggleButtonsMultiple").
Qed.

Lemma doc_headings_run_together_witness :
  (λ _ : documented, "") ToggleButtonsSingle = ""
  ∧ String.substring (String.length docstring) 44 (__doc__ (λ _, ""))
    = "# ToggleButtonsSingle# ToggleButtonsMultiple".
Proof.
  assert (H : (λ _ : documented, "") ToggleButtonsSingle = "") by reflexivity.
  split; [exact H|].
  exact (doc_headings_run_together (λ _, "") H).
Defined.
